(** * Robo-advisor Lex handler ([lambda_function.py])

    A shallow embedding of the dialog-fulfilment handler and the properties
    of its validator, recommendation table, response builders and
    dispatcher.

    Python values are modelled as follows.
    - A slot value is [option string]: [None] is Python's [None] (JSON null).
    - The slots dictionary is a [gmap string (option string)]; a key that
      is not in the map is a key that is not in the dictionary, and
      subscripting it raises [KeyError].
    - A Python [float] is a binary64 number, i.e. Rocq's primitive [float];
      comparisons are the IEEE ones, so every ordered comparison with NaN
      is false.
    - The builtins [int] and [float] applied to a string are parameters
      [py_int] and [py_float] of the development; [None] stands for the
      [ValueError] they raise on a string they cannot read.
    - Exceptions are values of [exn], carried by the [result] monad.
    - The handler updates the slots dictionary of the event in place; it is
      modelled as returning, next to its response, the event as the call
      leaves it. *)

From Stdlib Require Import ZArith String Ascii Floats Uint63 Lia.
From stdpp Require Import base option gmap strings pretty.

Local Open Scope string_scope.
Local Open Scope Z_scope.

(** ** Python numbers *)

(** What [parse_int] can return: an [int], or the [float] NaN sentinel. *)
Inductive pynum : Type :=
  | PyInt (i : Z)
  | PyFloat (x : float).

(** The double an integer literal of the source denotes when Python compares
    it with a [float]; exact for literals in [0, 2^53), which covers the
    literals [0], [65] and [5000] the validator uses. *)
Definition float_of_literal (k : Z) : float :=
  PrimFloat.of_uint63 (Uint63.of_Z k).

(** [a <= k], [a >= k] and [a < k] for an integer literal [k]. *)
Definition py_le (a : pynum) (k : Z) : bool :=
  match a with
  | PyInt i => i <=? k
  | PyFloat x => PrimFloat.leb x (float_of_literal k)
  end.

Definition py_ge (a : pynum) (k : Z) : bool :=
  match a with
  | PyInt i => i >=? k
  | PyFloat x => PrimFloat.leb (float_of_literal k) x
  end.

Definition py_lt (a : pynum) (k : Z) : bool :=
  match a with
  | PyInt i => i <? k
  | PyFloat x => PrimFloat.ltb x (float_of_literal k)
  end.

(** ** Exceptions *)

Inductive exn : Type :=
  | KeyError (key : string)
  | Exception (msg : string).

Inductive result (A : Type) : Type :=
  | Returns (a : A)
  | Raises (e : exn).
Arguments Returns {A} a.
Arguments Raises {A} e.

#[export] Instance result_ret : MRet result := fun A a => Returns a.
#[export] Instance result_bind : MBind result := fun A B f m =>
  match m with
  | Returns a => f a
  | Raises e => Raises e
  end.

(** ** Dictionaries *)

Abbreviation slot_dict := (gmap string (option string)).

(** [d[k]]: the value under [k], or [KeyError]. *)
Definition getitem {V : Type} (d : gmap string V) (k : string) : result V :=
  match d !! k with
  | Some v => Returns v
  | None => Raises (KeyError k)
  end.

(** [d.get(k, dflt)]; the key may be Python's [None], which is never a key
    of a dictionary whose keys are strings. *)
Definition dict_get {V : Type} (d : gmap string V) (k : option string)
    (dflt : V) : V :=
  match k with
  | Some k => default dflt (d !! k)
  | None => dflt
  end.

(** [d[k] = None] for a key [k] that is a string; the key [None] is not a
    key of the model (see [validate_data_invalid_slot]: the handler never
    stores under it). *)
Definition setitem_none (d : slot_dict) (k : option string) : slot_dict :=
  match k with
  | Some k => <[k := None]> d
  | None => d
  end.

(** [str.format] renders [None] as the text [None]. *)
Definition py_str (v : option string) : string :=
  match v with
  | Some s => s
  | None => "None"
  end.

(** ** The intent request *)

Record intent : Type := Intent {
  name : string;
  slots : slot_dict
}.

(** The four fields of the event the handler reads. [sessionAttributes] is
    [None] when the platform sends null. *)
Record event : Type := Event {
  currentIntent : intent;
  invocationSource : string;
  sessionAttributes : option (gmap string string)
}.

(** The event after its slots dictionary was updated in place. *)
Definition with_slots (ev : event) (d : slot_dict) : event :=
  Event (Intent (name (currentIntent ev)) d)
        (invocationSource ev) (sessionAttributes ev).

(** ** Validation results and messages *)

Record message : Type := Message {
  contentType : string;
  content : string
}.

(** The dictionary [build_validation_result] builds; [vr_message = None]
    is the dictionary without a ["message"] key. *)
Record validation_result : Type := ValidationResult {
  isValid : bool;
  violatedSlot : option string;
  vr_message : option message
}.

Definition build_validation_result
    (is_valid : bool) (violated_slot : option string)
    (message_content : option string) : validation_result :=
  match message_content with
  | None => ValidationResult is_valid violated_slot None
  | Some c =>
      ValidationResult is_valid violated_slot (Some (Message "PlainText" c))
  end.

(** ** Dialog actions *)

Definition get_slots (intent_request : event) : slot_dict :=
  slots (currentIntent intent_request).

Inductive dialog_action : Type :=
  | ElicitSlot (intentName : string) (slots : slot_dict)
      (slotToElicit : option string) (msg : message)
  | Delegate (slots : slot_dict)
  | Close (fulfillmentState : string) (msg : message).

Record response : Type := Response {
  resp_sessionAttributes : option (gmap string string);
  dialogAction : dialog_action
}.

Definition elicit_slot (session_attributes : option (gmap string string))
    (intent_name : string) (slots : slot_dict)
    (slot_to_elicit : option string) (msg : message) : response :=
  Response session_attributes
    (ElicitSlot intent_name slots slot_to_elicit msg).

Definition delegate (session_attributes : option (gmap string string))
    (slots : slot_dict) : response :=
  Response session_attributes (Delegate slots).

Definition close (session_attributes : option (gmap string string))
    (fulfillment_state : string) (msg : message) : response :=
  Response session_attributes (Close fulfillment_state msg).

(** ** Validation *)

Definition age_message : string :=
  "You should be at least 1 and below 65 years old. " ++
  "Please provide a different age.".

Definition amount_message : string :=
  "The amount to convert should be at least $5000. " ++
  "Please provide an amount of at least $5000.".

(** ** Recommendation *)

Definition recommendation_cases : gmap string string :=
  <["None" := "100% bonds (AGG), 0% equities (SPY)"]>
  (<["Very Low" := "80% bonds (AGG), 20% equities (SPY)"]>
  (<["Low" := "60% bonds (AGG), 40% equities (SPY)"]>
  (<["Medium" := "40% bonds (AGG), 60% equities (SPY)"]>
  (<["High" := "20% bonds (AGG), 80% equities (SPY)"]>
  (<["Very High" := "0% bonds (AGG), 100% equities (SPY)"]> ∅))))).

Definition get_initial_recommendation (risk_level : option string) : string :=
  dict_get recommendation_cases risk_level
    "100% bonds (AGG), 0% equities (SPY)".

(** The text of the closing message: the template of the source with its
    two [{}] fields filled in. The template spans three lines; the second
    and third start with the twelve spaces of the source's indentation. *)
Definition newline : string := String "010"%char "".

Definition indent : string := "            ".

Definition closing_content (first_name : option string)
    (initial_recommendation : string) : string :=
  py_str first_name ++ " thank you for your information;" ++ newline ++
  indent ++ "based on the risk level you defined, my recommendation is " ++
  "to choose an investment portfolio with " ++ initial_recommendation ++
  newline ++ indent.

(** ** An instance of the builtins

    [int_literal] reads an optionally signed, non-empty run of ASCII digits,
    as [int] does; [float_literal] reads the same strings when the number is
    below [2^53] in magnitude, where the conversion to a double is exact.
    Both agree with Python on the strings they read. The rest of Python's
    literal syntax (blanks, underscores, fractions, exponents, [inf],
    [nan]) is left out: such strings count as unreadable here. The
    theorems do not depend on this instance, they hold for every [py_int]
    and [py_float]; it serves to run the handler on sample events. *)

Definition digit_of (c : ascii) : option Z :=
  let n := Z.of_nat (nat_of_ascii c) in
  if (48 <=? n) && (n <=? 57) then Some (n - 48) else None.

Fixpoint digits_from (acc : Z) (s : string) : option Z :=
  match s with
  | EmptyString => Some acc
  | String c s' =>
      match digit_of c with
      | Some d => digits_from (10 * acc + d) s'
      | None => None
      end
  end.

Definition unsigned_literal (s : string) : option Z :=
  match s with
  | EmptyString => None
  | _ => digits_from 0 s
  end.

Definition int_literal (s : string) : option Z :=
  match s with
  | String "-"%char s' => Z.opp <$> unsigned_literal s'
  | String "+"%char s' => unsigned_literal s'
  | _ => unsigned_literal s
  end.

Definition unsigned_float_literal (s : string) : option float :=
  match unsigned_literal s with
  | Some z =>
      if z <? 2 ^ 53 then Some (PrimFloat.of_uint63 (Uint63.of_Z z))
      else None
  | None => None
  end.

Definition float_literal (s : string) : option float :=
  match s with
  | String "-"%char s' => PrimFloat.opp <$> unsigned_float_literal s'
  | String "+"%char s' => unsigned_float_literal s'
  | _ => unsigned_float_literal s
  end.

(** Sample events. *)
Definition sample_slots (first_name age investment_amount risk_level
    : option string) : slot_dict :=
  <["firstName" := first_name]>
  (<["age" := age]>
  (<["investmentAmount" := investment_amount]>
  (<["riskLevel" := risk_level]> ∅))).

Definition sample_event (source : string) (d : slot_dict) : event :=
  Event (Intent "RecommendPortfolio" d) source
        (Some {["userId" := "u-1"]}).

Definition age_70_event : event :=
  sample_event "DialogCodeHook"
    (sample_slots (Some "Jane") (Some "70") None None).

Definition valid_event : event :=
  sample_event "DialogCodeHook"
    (sample_slots (Some "Jane") (Some "30") (Some "6000") None).

Definition fulfilment_event : event :=
  sample_event "FulfillmentCodeHook"
    (sample_slots (Some "Jane") (Some "30") (Some "6000") (Some "High")).

(** Every slot present and null: nothing collected yet. *)
Definition null_slots_event : event :=
  sample_event "DialogCodeHook" (sample_slots None None None None).

(** The age and the amount are both out of range. *)
Definition both_invalid_event : event :=
  sample_event "DialogCodeHook"
    (sample_slots (Some "Jane") (Some "70") (Some "3000") None).


(** Slots dictionaries that lack some of the four keys. *)
Definition age_and_amount_only : slot_dict :=
  <["age" := Some "30"]> (<["investmentAmount" := Some "6000"]> ∅).

Definition name_and_risk_only : slot_dict :=
  <["firstName" := Some "Jane"]> (<["riskLevel" := Some "High"]> ∅).

(** ** The functions that depend on the builtins *)

Section Handler.

(** The builtins [int(n)] and [float(n)] on a string [n]. *)
Variable py_int : string -> option Z.
Variable py_float : string -> option float.

Definition parse_int (n : string) : pynum :=
  match py_int n with
  | Some i => PyInt i
  | None => PyFloat nan
  end.

Definition parse_float (n : string) : float :=
  match py_float n with
  | Some x => x
  | None => nan
  end.

Definition validate_data (age investment_amount : option string)
    (intent_request : event) : validation_result :=
  if match age with
     | Some n => let age := parse_int n in py_le age 0 || py_ge age 65
     | None => false
     end
  then build_validation_result false (Some "age") (Some age_message)
  else
    if match investment_amount with
       | Some n =>
           let investment_amount := parse_float n in
           py_lt (PyFloat investment_amount) 5000
       | None => false
       end
    then build_validation_result false (Some "investmentAmount")
           (Some amount_message)
    else build_validation_result true None None.

(** The handler returns its response together with the event as the call
    leaves it: the slots dictionary is updated in place, and the response
    holds that same dictionary. *)
Definition recommend_portfolio (intent_request : event)
    : result (response * event) :=
  let slots := get_slots intent_request in
  first_name ← getitem slots "firstName";
  age ← getitem slots "age";
  investment_amount ← getitem slots "investmentAmount";
  risk_level ← getitem slots "riskLevel";
  let source := invocationSource intent_request in
  if (source =? "DialogCodeHook")%string then
    let validation_result :=
      validate_data age investment_amount intent_request in
    if negb (isValid validation_result) then
      let slots := setitem_none slots (violatedSlot validation_result) in
      let intent_request := with_slots intent_request slots in
      msg ← match vr_message validation_result with
            | Some m => Returns m
            | None => Raises (KeyError "message")
            end;
      mret (elicit_slot
              (sessionAttributes intent_request)
              (name (currentIntent intent_request))
              slots
              (violatedSlot validation_result)
              msg,
            intent_request)
    else
      let output_session_attributes := sessionAttributes intent_request in
      mret (delegate output_session_attributes slots, intent_request)
  else
    let initial_recommendation := get_initial_recommendation risk_level in
    mret (close
            (sessionAttributes intent_request)
            "Fulfilled"
            (Message "PlainText"
               (closing_content first_name initial_recommendation)),
          intent_request).

Definition dispatch (intent_request : event) : result (response * event) :=
  let intent_name := name (currentIntent intent_request) in
  if (intent_name =? "RecommendPortfolio")%string then
    recommend_portfolio intent_request
  else
    Raises (Exception
              ("Intent with name " ++ intent_name ++ " not supported")).

Definition lambda_handler {Ctx : Type} (ev : event) (context : Ctx)
    : result (response * event) :=
  dispatch ev.

(** ** Vocabulary of the properties *)

(** The three results [validate_data] can build. *)
Definition age_violation : validation_result :=
  ValidationResult false (Some "age") (Some (Message "PlainText" age_message)).

Definition amount_violation : validation_result :=
  ValidationResult false (Some "investmentAmount")
    (Some (Message "PlainText" amount_message)).

Definition no_violation : validation_result :=
  ValidationResult true None None.

(** The two checks of [validate_data], on the optional slot value. *)
Definition age_rejected (age : option string) : bool :=
  match age with
  | Some n => py_le (parse_int n) 0 || py_ge (parse_int n) 65
  | None => false
  end.

Definition amount_rejected (investment_amount : option string) : bool :=
  match investment_amount with
  | Some n => py_lt (PyFloat (parse_float n)) 5000
  | None => false
  end.

(** The age slot is absent, or holds an integer strictly between 0 and 65. *)
Definition age_absent_or_in_range (age : option string) : Prop :=
  age = None \/
  (exists n i, age = Some n /\ py_int n = Some i /\ 0 < i < 65).

(** The age slot holds a string [int] cannot read. *)
Definition age_unreadable (age : option string) : Prop :=
  exists n, age = Some n /\ py_int n = None.

(** The slots dictionary has the four keys the handler subscripts. *)
Definition slot_keys : list string :=
  ["firstName"; "age"; "investmentAmount"; "riskLevel"].

Definition slots_complete (ev : event) : Prop :=
  Forall (fun k => is_Some (get_slots ev !! k)) slot_keys.

(** [t] occurs in [s]. *)
Definition contains (s t : string) : Prop :=
  exists pre post, s = pre ++ t ++ post.

(** The first of the four keys, in the order the handler subscripts them,
    that the slots dictionary lacks. *)
Definition first_missing_key (ev : event) : option string :=
  List.find (fun k => bool_decide (get_slots ev !! k = None)) slot_keys.

(** What a call that returns has returned: one of three shapes. *)
Inductive returned (ev : event) : response -> event -> Prop :=
  | returned_close first_name risk :
      get_slots ev !! "firstName" = Some first_name ->
      get_slots ev !! "riskLevel" = Some risk ->
      invocationSource ev <> "DialogCodeHook" ->
      returned ev
        (close (sessionAttributes ev) "Fulfilled"
           (Message "PlainText"
              (closing_content first_name (get_initial_recommendation risk))))
        ev
  | returned_delegate age inv :
      get_slots ev !! "age" = Some age ->
      get_slots ev !! "investmentAmount" = Some inv ->
      invocationSource ev = "DialogCodeHook" ->
      isValid (validate_data age inv ev) = true ->
      returned ev (delegate (sessionAttributes ev) (get_slots ev)) ev
  | returned_elicit age inv k msg :
      get_slots ev !! "age" = Some age ->
      get_slots ev !! "investmentAmount" = Some inv ->
      invocationSource ev = "DialogCodeHook" ->
      isValid (validate_data age inv ev) = false ->
      violatedSlot (validate_data age inv ev) = Some k ->
      vr_message (validate_data age inv ev) = Some msg ->
      returned ev
        (elicit_slot (sessionAttributes ev) (name (currentIntent ev))
           (<[k := None]> (get_slots ev)) (Some k) msg)
        (with_slots ev (<[k := None]> (get_slots ev))).

(** The recognised risk labels, from the most to the least conservative,
    and the allocation text of the label at position [i]: the bonds share
    falls and the equities share rises by 20 points per position. *)
Definition risk_labels : list string :=
  ["None"; "Very Low"; "Low"; "Medium"; "High"; "Very High"].

Definition allocation (i : nat) : string :=
  pretty (100 - 20 * i)%nat ++ "% bonds (AGG), " ++
  pretty (20 * i)%nat ++ "% equities (SPY)".

(** The ["type"] field of a dialog action, and its message if it has one. *)
Definition action_type (a : dialog_action) : string :=
  match a with
  | ElicitSlot _ _ _ _ => "ElicitSlot"
  | Delegate _ => "Delegate"
  | Close _ _ => "Close"
  end.

Definition action_message (a : dialog_action) : option message :=
  match a with
  | ElicitSlot _ _ _ m | Close _ m => Some m
  | Delegate _ => None
  end.

(** The value the handler reads under a slot key that is present. *)
Definition slot_value (ev : event) (k : string) : option string :=
  default None (get_slots ev !! k).

(** The call returns a response whose dialog action has type [t]. *)
Definition returns_type (ev : event) (t : string) : Prop :=
  exists resp ev',
    recommend_portfolio ev = Returns (resp, ev') /\
    action_type (dialogAction resp) = t.

(** The investment amount is absent, unreadable, reads as NaN, or reads as
    a number that is at least 5000. *)
Definition amount_passes (inv : option string) : Prop :=
  inv = None \/
  (exists n, inv = Some n /\ py_float n = None) \/
  (exists n x, inv = Some n /\ py_float n = Some x /\
     (PrimFloat.is_nan x = true \/ PrimFloat.leb 5000 x = true)).

(** * Properties *)

(** ** Comparisons of doubles *)

Lemma SFcompare_antisym (a b : spec_float) :
  SFcompare b a = option_map CompOpp (SFcompare a b).
Proof.
  destruct a as [s|s| |s m e], b as [s'|s'| |s' m' e']; simpl;
    try reflexivity; try (destruct s; reflexivity);
    try (destruct s, s'; reflexivity).
  destruct s, s'; simpl; try reflexivity;
    rewrite (Z.compare_antisym e e'); destruct (e ?= e') eqn:He;
    simpl; try reflexivity;
    rewrite (Pos.compare_cont_antisym m m' Eq); reflexivity.
Qed.

Lemma leb_ltb_false (a x : float) :
  PrimFloat.leb a x = true -> PrimFloat.ltb x a = false.
Proof.
  rewrite FloatAxioms.leb_spec, FloatAxioms.ltb_spec. unfold SFleb, SFltb.
  rewrite (SFcompare_antisym (Prim2SF a) (Prim2SF x)).
  destruct (SFcompare (Prim2SF a) (Prim2SF x)) as [[]|]; simpl; congruence.
Qed.

Lemma Prim2SF_nan : Prim2SF nan = S754_nan.
Proof. reflexivity. Qed.

Lemma leb_nan_l (y : float) : PrimFloat.leb nan y = false.
Proof. rewrite FloatAxioms.leb_spec, Prim2SF_nan. reflexivity. Qed.

Lemma leb_nan_r (y : float) : PrimFloat.leb y nan = false.
Proof.
  rewrite FloatAxioms.leb_spec, Prim2SF_nan.
  unfold SFleb. destruct (Prim2SF y); reflexivity.
Qed.

Lemma ltb_nan_l (y : float) : PrimFloat.ltb nan y = false.
Proof. rewrite FloatAxioms.ltb_spec, Prim2SF_nan. reflexivity. Qed.

(** Every ordered comparison of the sentinel with an integer literal is
    false. *)
Lemma py_cmp_nan (k : Z) :
  py_le (PyFloat nan) k = false /\
  py_ge (PyFloat nan) k = false /\
  py_lt (PyFloat nan) k = false.
Proof.
  unfold py_le, py_ge, py_lt.
  rewrite leb_nan_l, leb_nan_r, ltb_nan_l. auto.
Qed.

(** ** The validator *)

Lemma validate_data_unfold age inv req :
  validate_data age inv req =
    if age_rejected age then age_violation
    else if amount_rejected inv then amount_violation
    else no_violation.
Proof. reflexivity. Qed.

(** The validator has three possible results. *)
Lemma validate_data_cases age inv req :
  (age_rejected age = true /\ validate_data age inv req = age_violation) \/
  (age_rejected age = false /\ amount_rejected inv = true /\
     validate_data age inv req = amount_violation) \/
  (age_rejected age = false /\ amount_rejected inv = false /\
     validate_data age inv req = no_violation).
Proof.
  rewrite validate_data_unfold.
  destruct (age_rejected age); [tauto|].
  destruct (amount_rejected inv); tauto.
Qed.

(** An invalid result always names a slot and carries a message. *)
Lemma validate_data_invalid_slot age inv req :
  isValid (validate_data age inv req) = false ->
  exists k msg,
    violatedSlot (validate_data age inv req) = Some k /\
    vr_message (validate_data age inv req) = Some msg /\
    (k = "age" \/ k = "investmentAmount").
Proof.
  destruct (validate_data_cases age inv req)
    as [[_ ->]|[(_ & _ & ->)|(_ & _ & ->)]];
    simpl; intros H; try discriminate; eauto 6.
Qed.

Lemma age_rejected_int n i :
  py_int n = Some i ->
  age_rejected (Some n) = true <-> (i <= 0 \/ 65 <= i).
Proof.
  intros Hn. unfold age_rejected, parse_int. rewrite Hn. simpl.
  rewrite orb_true_iff, Z.leb_le, Z.geb_le. tauto.
Qed.

Lemma age_rejected_unreadable n :
  py_int n = None -> age_rejected (Some n) = false.
Proof.
  intros Hn. unfold age_rejected, parse_int. rewrite Hn.
  destruct (py_cmp_nan 0) as (-> & _ & _).
  destruct (py_cmp_nan 65) as (_ & -> & _). reflexivity.
Qed.

Lemma amount_rejected_unreadable n :
  py_float n = None -> amount_rejected (Some n) = false.
Proof.
  intros Hn. unfold amount_rejected, parse_float. rewrite Hn.
  apply py_cmp_nan.
Qed.

Lemma amount_rejected_float n x :
  py_float n = Some x ->
  amount_rejected (Some n) = PrimFloat.ltb x 5000.
Proof.
  intros Hn. unfold amount_rejected, parse_float. rewrite Hn. reflexivity.
Qed.

(** The age check passes exactly when the slot is absent, in range, or
    unreadable. *)
Lemma age_rejected_false age :
  age_rejected age = false <->
  age_absent_or_in_range age \/ age_unreadable age.
Proof.
  unfold age_absent_or_in_range, age_unreadable. destruct age as [n|].
  - destruct (py_int n) as [i|] eqn:Hn.
    + pose proof (age_rejected_int n i Hn) as Hi. split.
      * intros Hf. left; right. exists n, i. repeat split; auto.
        all: destruct (Z_lt_le_dec 0 i), (Z_lt_le_dec i 65); try lia.
        all: exfalso; assert (age_rejected (Some n) = true) by (apply Hi; lia);
          congruence.
      * intros [[?|(n' & i' & Hn' & Hp & Hr)]|(n' & Hn' & Hp)];
          try discriminate; simplify_eq.
        apply not_true_is_false. intros E. apply Hi in E. lia.
    + split; [|intros _; by apply age_rejected_unreadable].
      intros _. right. eauto.
  - split; auto.
Qed.

(** C1 (as amended). The age check comes first: an age that reads as an
    integer [<= 0] or [>= 65] gives the age violation, with its fixed
    message, whatever the investment amount is. An investment amount that
    reads as a number below 5000 is the reported violation exactly when the
    age slot is absent, holds an integer strictly between 0 and 65, or holds
    a string [int] cannot read. *)
Theorem validate_data_first_violation
    (age inv : option string) (req : event) :
  (forall n i,
     age = Some n -> py_int n = Some i -> (i <= 0 \/ 65 <= i) ->
     validate_data age inv req = age_violation) /\
  (forall m x,
     inv = Some m -> py_float m = Some x -> PrimFloat.ltb x 5000 = true ->
     (violatedSlot (validate_data age inv req) = Some "investmentAmount" <->
        age_absent_or_in_range age \/ age_unreadable age) /\
     (age_absent_or_in_range age \/ age_unreadable age ->
        validate_data age inv req = amount_violation)).
Proof.
  split.
  - intros n i -> Hn Hi. rewrite validate_data_unfold.
    apply (age_rejected_int n i Hn) in Hi. by rewrite Hi.
  - intros m x -> Hm Hx.
    pose proof (amount_rejected_float m x Hm) as Ha. rewrite Hx in Ha.
    rewrite <- age_rejected_false, validate_data_unfold, Ha.
    destruct (age_rejected age); simpl; split; try split;
      congruence.
Qed.

(** C3. A string the builtin cannot read becomes the NaN sentinel, every
    ordered comparison of the sentinel with an integer literal is false, and
    so the validator treats an unreadable age or investment amount like an
    absent one: it is never the reported violation. *)
Theorem unparsable_slot_fails_open (n : string) :
  (py_int n = None ->
     parse_int n = PyFloat nan /\
     (forall k, py_le (parse_int n) k = false /\
                py_ge (parse_int n) k = false) /\
     (forall inv req,
        validate_data (Some n) inv req = validate_data None inv req /\
        violatedSlot (validate_data (Some n) inv req) <> Some "age")) /\
  (py_float n = None ->
     parse_float n = nan /\
     (forall k, py_lt (PyFloat (parse_float n)) k = false) /\
     (forall age req,
        validate_data age (Some n) req = validate_data age None req /\
        violatedSlot (validate_data age (Some n) req)
          <> Some "investmentAmount")).
Proof.
  split; intros Hn.
  - assert (Hp : parse_int n = PyFloat nan) by (unfold parse_int; by rewrite Hn).
    split; [done|]. rewrite Hp. split.
    + intros k. destruct (py_cmp_nan k) as (? & ? & ?). auto.
    + intros inv req. rewrite !validate_data_unfold.
      rewrite (age_rejected_unreadable n Hn). simpl.
      split; [done|]. destruct (amount_rejected inv); simpl; congruence.
  - assert (Hp : parse_float n = nan) by (unfold parse_float; by rewrite Hn).
    split; [done|]. rewrite Hp. split.
    + intros k. apply py_cmp_nan.
    + intros age req. rewrite !validate_data_unfold.
      rewrite (amount_rejected_unreadable n Hn). simpl.
      split; [done|]. destruct (age_rejected age); simpl; congruence.
Qed.

(** ** The recommendation table *)

Lemma recommendation_cases_other (l : string) :
  l ∉ risk_labels -> recommendation_cases !! l = None.
Proof.
  unfold risk_labels. rewrite !not_elem_of_cons.
  intros (H1 & H2 & H3 & H4 & H5 & H6 & _).
  unfold recommendation_cases.
  rewrite !lookup_insert_ne by congruence. apply lookup_empty.
Qed.

(** C4. The lookup is total. The six labels map to their allocation texts,
    which go from 100% bonds to 100% equities in steps of 20 points; any
    other label, and a missing label, map to the text of ["None"]. *)
Theorem get_initial_recommendation_total :
  get_initial_recommendation (Some "None")
    = "100% bonds (AGG), 0% equities (SPY)" /\
  get_initial_recommendation (Some "Very Low")
    = "80% bonds (AGG), 20% equities (SPY)" /\
  get_initial_recommendation (Some "Low")
    = "60% bonds (AGG), 40% equities (SPY)" /\
  get_initial_recommendation (Some "Medium")
    = "40% bonds (AGG), 60% equities (SPY)" /\
  get_initial_recommendation (Some "High")
    = "20% bonds (AGG), 80% equities (SPY)" /\
  get_initial_recommendation (Some "Very High")
    = "0% bonds (AGG), 100% equities (SPY)" /\
  (forall i l, risk_labels !! i = Some l ->
     get_initial_recommendation (Some l) = allocation i) /\
  get_initial_recommendation None
    = "100% bonds (AGG), 0% equities (SPY)" /\
  (forall l, l ∉ risk_labels ->
     get_initial_recommendation (Some l)
       = "100% bonds (AGG), 0% equities (SPY)").
Proof.
  repeat split; try (vm_compute; reflexivity).
  - intros i l Hl.
    do 6 (destruct i as [|i];
          [injection Hl as <-; vm_compute; reflexivity|]).
    discriminate.
  - intros l Hl. unfold get_initial_recommendation, dict_get.
    by rewrite (recommendation_cases_other l Hl).
Qed.

(** ** The handler, branch by branch *)

Lemma slots_complete_lookup ev :
  slots_complete ev <->
  exists first_name age inv risk,
    get_slots ev !! "firstName" = Some first_name /\
    get_slots ev !! "age" = Some age /\
    get_slots ev !! "investmentAmount" = Some inv /\
    get_slots ev !! "riskLevel" = Some risk.
Proof.
  unfold slots_complete, slot_keys. rewrite !Forall_cons, Forall_nil.
  unfold is_Some. split.
  - intros ([a Ha] & [b Hb] & [c Hc] & [d Hd] & _). eauto 10.
  - intros (a & b & c & d & Ha & Hb & Hc & Hd). eauto 10.
Qed.

Lemma slots_complete_dec ev : slots_complete ev \/ ~ slots_complete ev.
Proof.
  unfold slots_complete.
  destruct (decide (Forall (fun k => is_Some (get_slots ev !! k)) slot_keys));
    auto.
Qed.

(** With the four keys present the four subscripts succeed, and the handler
    is left with the choice on [invocationSource]. *)
Lemma recommend_portfolio_fulfilment ev first_name age inv risk :
  get_slots ev !! "firstName" = Some first_name ->
  get_slots ev !! "age" = Some age ->
  get_slots ev !! "investmentAmount" = Some inv ->
  get_slots ev !! "riskLevel" = Some risk ->
  invocationSource ev <> "DialogCodeHook" ->
  recommend_portfolio ev =
    Returns (close (sessionAttributes ev) "Fulfilled"
               (Message "PlainText"
                  (closing_content first_name
                     (get_initial_recommendation risk))),
             ev).
Proof.
  intros Hf Ha Hi Hr Hs. apply String.eqb_neq in Hs.
  unfold recommend_portfolio, getitem.
  rewrite Hf, Ha, Hi, Hr. simpl. rewrite Hs. reflexivity.
Qed.

Lemma recommend_portfolio_valid ev first_name age inv risk :
  get_slots ev !! "firstName" = Some first_name ->
  get_slots ev !! "age" = Some age ->
  get_slots ev !! "investmentAmount" = Some inv ->
  get_slots ev !! "riskLevel" = Some risk ->
  invocationSource ev = "DialogCodeHook" ->
  isValid (validate_data age inv ev) = true ->
  recommend_portfolio ev =
    Returns (delegate (sessionAttributes ev) (get_slots ev), ev).
Proof.
  intros Hf Ha Hi Hr Hs Hv. apply String.eqb_eq in Hs.
  unfold recommend_portfolio, getitem.
  rewrite Hf, Ha, Hi, Hr. simpl. rewrite Hs, Hv. reflexivity.
Qed.

Lemma recommend_portfolio_invalid ev first_name age inv risk k msg :
  get_slots ev !! "firstName" = Some first_name ->
  get_slots ev !! "age" = Some age ->
  get_slots ev !! "investmentAmount" = Some inv ->
  get_slots ev !! "riskLevel" = Some risk ->
  invocationSource ev = "DialogCodeHook" ->
  isValid (validate_data age inv ev) = false ->
  violatedSlot (validate_data age inv ev) = Some k ->
  vr_message (validate_data age inv ev) = Some msg ->
  recommend_portfolio ev =
    Returns (elicit_slot (sessionAttributes ev) (name (currentIntent ev))
               (<[k := None]> (get_slots ev)) (Some k) msg,
             with_slots ev (<[k := None]> (get_slots ev))).
Proof.
  intros Hf Ha Hi Hr Hs Hv Hk Hm. apply String.eqb_eq in Hs.
  unfold recommend_portfolio, getitem.
  rewrite Hf, Ha, Hi, Hr. simpl. rewrite Hs, Hv, Hk, Hm. reflexivity.
Qed.

(** The first of the four keys that is missing is the one the [KeyError]
    names. *)
Lemma recommend_portfolio_missing ev :
  ~ slots_complete ev ->
  exists k, k ∈ slot_keys /\ get_slots ev !! k = None /\
            recommend_portfolio ev = Raises (KeyError k).
Proof.
  intros Hn. unfold recommend_portfolio, getitem.
  destruct (get_slots ev !! "firstName") as [a|] eqn:Ha;
    [|exists "firstName"; repeat split; auto; unfold slot_keys; set_solver].
  destruct (get_slots ev !! "age") as [b|] eqn:Hb;
    [|exists "age"; repeat split; auto; unfold slot_keys; set_solver].
  destruct (get_slots ev !! "investmentAmount") as [c|] eqn:Hc;
    [|exists "investmentAmount"; repeat split; auto;
      unfold slot_keys; set_solver].
  destruct (get_slots ev !! "riskLevel") as [d|] eqn:Hd;
    [|exists "riskLevel"; repeat split; auto; unfold slot_keys; set_solver].
  exfalso. apply Hn. apply slots_complete_lookup. eauto 10.
Qed.

Lemma recommend_portfolio_complete ev :
  slots_complete ev ->
  exists resp ev',
    recommend_portfolio ev = Returns (resp, ev') /\ returned ev resp ev'.
Proof.
  intros (a & b & c & d & Ha & Hb & Hc & Hd)%slots_complete_lookup.
  destruct (String.eqb_spec (invocationSource ev) "DialogCodeHook") as [Hs|Hs].
  - destruct (isValid (validate_data b c ev)) eqn:Hv.
    + do 2 eexists. split; [by eapply recommend_portfolio_valid|].
      by eapply returned_delegate.
    + destruct (validate_data_invalid_slot b c ev Hv)
        as (k & msg & Hk & Hm & _).
      do 2 eexists. split; [by eapply recommend_portfolio_invalid|].
      by eapply returned_elicit.
  - do 2 eexists. split; [by eapply recommend_portfolio_fulfilment|].
    by eapply returned_close.
Qed.

Lemma recommend_portfolio_returns_iff ev :
  (exists r, recommend_portfolio ev = Returns r) <-> slots_complete ev.
Proof.
  split.
  - intros [r Hr]. destruct (slots_complete_dec ev) as [|Hn]; [done|].
    destruct (recommend_portfolio_missing ev Hn) as (k & _ & _ & Hk).
    congruence.
  - intros (resp & ev' & Hr & _)%recommend_portfolio_complete. eauto.
Qed.

Lemma recommend_portfolio_inv ev resp ev' :
  recommend_portfolio ev = Returns (resp, ev') -> returned ev resp ev'.
Proof.
  intros Hr.
  assert (Hc : slots_complete ev)
    by (apply recommend_portfolio_returns_iff; eauto).
  destruct (recommend_portfolio_complete ev Hc) as (r & e & Hr' & Hret).
  congruence.
Qed.

(** The response holds the slots dictionary of the event itself: what the
    response shows is what the event has after the call. *)
Lemma response_slots_alias ev resp ev' :
  recommend_portfolio ev = Returns (resp, ev') ->
  match dialogAction resp with
  | ElicitSlot _ d _ _ | Delegate d => d = get_slots ev'
  | Close _ _ => get_slots ev' = get_slots ev
  end.
Proof. intros Hr%recommend_portfolio_inv. by destruct Hr. Qed.

Lemma append_assoc (a b c : string) : (a ++ b) ++ c = a ++ b ++ c.
Proof.
  induction a as [|ch a IH]; [reflexivity|].
  change (String ch ((a ++ b) ++ c) = String ch (a ++ b ++ c)).
  by rewrite IH.
Qed.

Lemma closing_content_contains first_name recommendation :
  contains (closing_content first_name recommendation) (py_str first_name) /\
  contains (closing_content first_name recommendation) recommendation.
Proof.
  unfold contains, closing_content. split.
  - exists "". eexists. reflexivity.
  - exists (py_str first_name ++ " thank you for your information;" ++
            newline ++ indent ++
            "based on the risk level you defined, my recommendation is " ++
            "to choose an investment portfolio with "),
           (newline ++ indent).
    by rewrite !append_assoc.
Qed.

Lemma first_missing_key_raises ev k :
  first_missing_key ev = Some k ->
  recommend_portfolio ev = Raises (KeyError k).
Proof.
  unfold first_missing_key, slot_keys, recommend_portfolio, getitem. simpl.
  repeat (case_bool_decide as H;
          [rewrite H; intros [= <-]; reflexivity|];
          apply not_eq_None_Some in H as [? ->]; simpl).
  discriminate.
Qed.

Lemma first_missing_key_some ev k :
  k ∈ slot_keys -> get_slots ev !! k = None ->
  exists k', first_missing_key ev = Some k' /\
             k' ∈ slot_keys /\ get_slots ev !! k' = None.
Proof.
  intros Hk Hn.
  destruct (first_missing_key ev) as [k'|] eqn:Hf.
  - exists k'. split; [done|]. unfold first_missing_key in Hf.
    apply find_some in Hf as [Hin Hb].
    apply bool_decide_eq_true in Hb. by rewrite list_elem_of_In.
  - exfalso. unfold first_missing_key in Hf.
    pose proof (find_none _ _ Hf k) as Hb.
    rewrite <- list_elem_of_In in Hb. specialize (Hb Hk). cbv beta in Hb.
    apply bool_decide_eq_false in Hb. done.
Qed.

Lemma dispatch_returns ev r :
  dispatch ev = Returns r ->
  name (currentIntent ev) = "RecommendPortfolio" /\
  recommend_portfolio ev = Returns r.
Proof.
  unfold dispatch.
  destruct (String.eqb_spec (name (currentIntent ev)) "RecommendPortfolio");
    [done|discriminate].
Qed.

Lemma validate_data_valid n i m x req :
  py_int n = Some i -> 0 < i < 65 ->
  py_float m = Some x -> PrimFloat.leb 5000 x = true ->
  validate_data (Some n) (Some m) req = no_violation.
Proof.
  intros Hn Hi Hm Hx. rewrite validate_data_unfold.
  assert (Ha : age_rejected (Some n) = false).
  { apply age_rejected_false. left; right. eauto 6. }
  rewrite Ha, (amount_rejected_float m x Hm).
  by rewrite (leb_ltb_false _ _ Hx).
Qed.

(** ** The handler's contract *)

(** C2 (as amended). In the validation phase, when the slots dictionary has
    its four keys, the age reads as an integer strictly between 0 and 65 and
    the investment amount reads as a number [>= 5000], the validator returns
    the valid result, with no violated slot and no message, and the handler
    returns Delegate with the slots as they came in. *)
Theorem valid_slots_delegate ev first_name n i m x risk :
  invocationSource ev = "DialogCodeHook" ->
  get_slots ev !! "firstName" = Some first_name ->
  get_slots ev !! "age" = Some (Some n) ->
  get_slots ev !! "investmentAmount" = Some (Some m) ->
  get_slots ev !! "riskLevel" = Some risk ->
  py_int n = Some i -> 0 < i < 65 ->
  py_float m = Some x -> PrimFloat.leb 5000 x = true ->
  validate_data (Some n) (Some m) ev = ValidationResult true None None /\
  recommend_portfolio ev =
    Returns (Response (sessionAttributes ev) (Delegate (get_slots ev)), ev).
Proof.
  intros Hs Hf Ha Hm Hr Hn Hi Hx Hge.
  pose proof (validate_data_valid n i m x ev Hn Hi Hx Hge) as Hv.
  split; [exact Hv|].
  rewrite (recommend_portfolio_valid ev _ _ _ _ Hf Ha Hm Hr Hs);
    [reflexivity|by rewrite Hv].
Qed.

(** C5. In the validation phase, when validation fails, the handler returns
    ElicitSlot for the violated slot with the violation message; in the
    slots it returns the violated slot is null and every other slot is as
    it came in. *)
Theorem invalid_slot_elicited ev first_name age inv risk :
  invocationSource ev = "DialogCodeHook" ->
  get_slots ev !! "firstName" = Some first_name ->
  get_slots ev !! "age" = Some age ->
  get_slots ev !! "investmentAmount" = Some inv ->
  get_slots ev !! "riskLevel" = Some risk ->
  isValid (validate_data age inv ev) = false ->
  exists k msg d,
    violatedSlot (validate_data age inv ev) = Some k /\
    vr_message (validate_data age inv ev) = Some msg /\
    recommend_portfolio ev =
      Returns (Response (sessionAttributes ev)
                 (ElicitSlot (name (currentIntent ev)) d (Some k) msg),
               with_slots ev d) /\
    d !! k = Some None /\
    (forall j, j <> k -> d !! j = get_slots ev !! j).
Proof.
  intros Hs Hf Ha Hi Hr Hv.
  destruct (validate_data_invalid_slot age inv ev Hv)
    as (k & msg & Hk & Hm & _).
  exists k, msg, (<[k := None]> (get_slots ev)). repeat split; try done.
  - by rewrite (recommend_portfolio_invalid ev _ _ _ _ k msg Hf Ha Hi Hr Hs).
  - apply lookup_insert_eq.
  - intros j Hj. by apply lookup_insert_ne.
Qed.

(** C6 (as amended). When the slots dictionary has its four keys and
    [invocationSource] is anything but ["DialogCodeHook"], the handler
    returns Close with state ["Fulfilled"] and a PlainText message whose
    content contains the first name and the recommendation for the risk
    level. A null first name appears the way [str.format] renders it. *)
Theorem fulfilment_closes ev first_name age inv risk :
  invocationSource ev <> "DialogCodeHook" ->
  get_slots ev !! "firstName" = Some first_name ->
  get_slots ev !! "age" = Some age ->
  get_slots ev !! "investmentAmount" = Some inv ->
  get_slots ev !! "riskLevel" = Some risk ->
  let text := closing_content first_name (get_initial_recommendation risk) in
  recommend_portfolio ev =
    Returns (Response (sessionAttributes ev)
               (Close "Fulfilled" (Message "PlainText" text)), ev) /\
  (forall s, first_name = Some s -> contains text s) /\
  contains text (py_str first_name) /\
  contains text (get_initial_recommendation risk).
Proof.
  intros Hs Hf Ha Hi Hr text.
  destruct (closing_content_contains first_name
              (get_initial_recommendation risk)) as [Hn Hrec].
  split; [|split; [|split]]; try done.
  - by rewrite (recommend_portfolio_fulfilment ev _ _ _ _ Hf Ha Hi Hr Hs).
  - by intros s ->.
Qed.

(** C7 (as amended). The dispatcher hands the event to the handler exactly
    when the intent name is ["RecommendPortfolio"], and raises the
    unsupported-intent error for every other name; [lambda_handler] returns
    normally if and only if the intent name is ["RecommendPortfolio"] and
    the slots dictionary has its four keys. *)
Theorem dispatch_exact_match {Ctx : Type} (ev : event) (context : Ctx) :
  (name (currentIntent ev) = "RecommendPortfolio" ->
     dispatch ev = recommend_portfolio ev) /\
  (name (currentIntent ev) <> "RecommendPortfolio" ->
     dispatch ev =
       Raises (Exception ("Intent with name " ++ name (currentIntent ev)
                          ++ " not supported"))) /\
  ((exists r, lambda_handler ev context = Returns r) <->
     name (currentIntent ev) = "RecommendPortfolio" /\ slots_complete ev).
Proof.
  unfold lambda_handler, dispatch.
  destruct (String.eqb_spec (name (currentIntent ev)) "RecommendPortfolio")
    as [He|He].
  - split; [done|]. split; [done|].
    rewrite recommend_portfolio_returns_iff. tauto.
  - split; [done|]. split; [done|]. split.
    + intros [r Hr]. discriminate.
    + intros [Hn _]. done.
Qed.

(** C8. Whatever the handler returns, ElicitSlot, Delegate or Close, carries
    the session attributes of the event, and the event keeps them. *)
Theorem session_attributes_echoed {Ctx : Type} (ev : event) (context : Ctx)
    (resp : response) (ev' : event) :
  recommend_portfolio ev = Returns (resp, ev') \/
  lambda_handler ev context = Returns (resp, ev') ->
  resp_sessionAttributes resp = sessionAttributes ev /\
  sessionAttributes ev' = sessionAttributes ev.
Proof.
  intros [Hr|Hr%dispatch_returns%proj2];
    apply recommend_portfolio_inv in Hr; by destruct Hr.
Qed.

(** C9. A Close response of the handler always has state ["Fulfilled"]; the
    state ["Failed"] is never produced. *)
Theorem close_always_fulfilled ev resp ev' state msg :
  recommend_portfolio ev = Returns (resp, ev') ->
  dialogAction resp = Close state msg ->
  state = "Fulfilled" /\ state <> "Failed".
Proof.
  intros Hr%recommend_portfolio_inv Hc.
  destruct Hr; simpl in Hc; try discriminate.
  injection Hc as <- _. by split.
Qed.

(** C10. The handler needs the four slot keys, whatever their values, null
    included: when one of them is missing it raises [KeyError], for the
    first missing key, and returns no response; when the four are present
    it returns one. *)
Theorem missing_slot_key_raises ev :
  (forall k, k ∈ slot_keys -> get_slots ev !! k = None ->
     exists k', first_missing_key ev = Some k' /\
                k' ∈ slot_keys /\ get_slots ev !! k' = None /\
                recommend_portfolio ev = Raises (KeyError k')) /\
  (slots_complete ev ->
     exists resp ev', recommend_portfolio ev = Returns (resp, ev')).
Proof.
  split.
  - intros k Hk Hn.
    destruct (first_missing_key_some ev k Hk Hn) as (k' & Hf & Hin & Hl).
    exists k'. repeat split; try done. by apply first_missing_key_raises.
  - intros (resp & ev' & Hr & _)%recommend_portfolio_complete. eauto.
Qed.

(** * Further properties of the code *)

(** ** More on comparisons of doubles *)

Lemma SFcompare_None (a b : spec_float) :
  SFcompare a b = None -> a = S754_nan \/ b = S754_nan.
Proof.
  destruct a as [s|s| |s m e], b as [s'|s'| |s' m' e']; simpl;
    intros H; try discriminate; auto.
Qed.

Lemma Prim2SF_nan_iff (x : float) :
  Prim2SF x = S754_nan <-> PrimFloat.is_nan x = true.
Proof.
  unfold Prim2SF. destruct (PrimFloat.is_nan x); [tauto|].
  split; [|discriminate].
  destruct (PrimFloat.is_zero x); [discriminate|].
  destruct (PrimFloat.is_infinity x); [discriminate|].
  destruct (FloatOps.Z.frexp x) as [r ex].
  destruct (shr_fexp prec emax (Uint63.to_Z (normfr_mantissa r)) (ex - prec)
              loc_Exact) as [shr e'].
  destruct (shr_m shr); discriminate.
Qed.

(** [x < a] is false exactly when [x] is NaN or [a <= x], for [a] a number. *)
Lemma ltb_false_iff (x a : float) :
  PrimFloat.is_nan a = false ->
  PrimFloat.ltb x a = false <->
  PrimFloat.is_nan x = true \/ PrimFloat.leb a x = true.
Proof.
  intros Ha. rewrite <- Prim2SF_nan_iff.
  rewrite FloatAxioms.leb_spec, FloatAxioms.ltb_spec. unfold SFleb, SFltb.
  rewrite (SFcompare_antisym (Prim2SF x) (Prim2SF a)).
  destruct (SFcompare (Prim2SF x) (Prim2SF a)) as [[]|] eqn:Hc; simpl.
  - split; auto.
  - split; [discriminate|]. intros [Hn|?]; [|discriminate].
    rewrite Hn in Hc. discriminate.
  - split; auto.
  - split; auto. intros _. left.
    destruct (SFcompare_None _ _ Hc) as [?|Hn]; [done|].
    apply Prim2SF_nan_iff in Hn. congruence.
Qed.

(** ** More on the validator *)

Lemma amount_rejected_false inv :
  amount_rejected inv = false <-> amount_passes inv.
Proof.
  unfold amount_passes. destruct inv as [n|]; [|split; auto].
  destruct (py_float n) as [x|] eqn:Hn.
  - rewrite (amount_rejected_float n x Hn).
    rewrite (ltb_false_iff x 5000 eq_refl). split.
    + intros H. right; right. eauto.
    + intros [?|[(n' & [= <-] & ?)|(n' & x' & [= <-] & Hx & H)]];
        [discriminate|congruence|]. by simplify_eq.
  - split; [intros _; right; left; eauto|].
    intros _. by apply amount_rejected_unreadable.
Qed.

(** X1. The validator accepts exactly when each of the two slots passes its
    check: the age is absent, unreadable, or an integer strictly between 0
    and 65, and the investment amount is absent, unreadable, NaN, or at
    least 5000. *)
Theorem validate_data_valid_iff age inv req :
  isValid (validate_data age inv req) = true <->
  (age_absent_or_in_range age \/ age_unreadable age) /\ amount_passes inv.
Proof.
  rewrite <- age_rejected_false, <- amount_rejected_false.
  rewrite validate_data_unfold.
  destruct (age_rejected age), (amount_rejected inv); simpl;
    split; try tauto; try discriminate; intros [? ?]; discriminate.
Qed.

(** X2. A validation result names a violated slot, and has a message,
    exactly when it is invalid; the slot is then ["age"] or
    ["investmentAmount"], with the message of that slot. *)
Theorem validation_result_shape age inv req :
  let r := validate_data age inv req in
  (isValid r = true <-> violatedSlot r = None) /\
  (isValid r = true <-> vr_message r = None) /\
  (isValid r = false ->
     (violatedSlot r = Some "age" /\
      vr_message r = Some (Message "PlainText" age_message)) \/
     (violatedSlot r = Some "investmentAmount" /\
      vr_message r = Some (Message "PlainText" amount_message))).
Proof.
  intros r. subst r.
  destruct (validate_data_cases age inv req)
    as [[_ ->]|[(_ & _ & ->)|(_ & _ & ->)]]; simpl;
    repeat split; try discriminate; try done; auto.
Qed.

(** X3. The recommendation is always one of the six allocation texts, and
    two different recognised labels never get the same one. *)
Theorem get_initial_recommendation_range risk_level :
  (exists i, (i < 6)%nat /\
             get_initial_recommendation risk_level = allocation i) /\
  (forall l1 l2, l1 ∈ risk_labels -> l2 ∈ risk_labels ->
     get_initial_recommendation (Some l1) =
       get_initial_recommendation (Some l2) -> l1 = l2).
Proof.
  split.
  - destruct risk_level as [l|]; [|exists 0%nat; split; [lia|done]].
    destruct (decide (l ∈ risk_labels)) as [Hl|Hl].
    + unfold risk_labels in Hl. rewrite !elem_of_cons in Hl.
      destruct Hl as [->|[->|[->|[->|[->|[->|Hl]]]]]];
        [exists 0%nat|exists 1%nat|exists 2%nat|exists 3%nat|exists 4%nat
        |exists 5%nat|by apply elem_of_nil in Hl];
        (split; [lia|vm_compute; reflexivity]).
    + exists 0%nat. split; [lia|].
      unfold get_initial_recommendation, dict_get.
      by rewrite (recommendation_cases_other l Hl).
  - intros l1 l2 H1 H2. unfold risk_labels in H1, H2.
    rewrite !elem_of_cons in H1, H2.
    destruct H1 as [->|[->|[->|[->|[->|[->|H1]]]]]];
      try (by apply elem_of_nil in H1);
      destruct H2 as [->|[->|[->|[->|[->|[->|H2]]]]]];
      try (by apply elem_of_nil in H2);
      vm_compute; first [reflexivity | discriminate].
Qed.

(** ** More on the handler *)

Lemma slot_value_lookup ev k v :
  get_slots ev !! k = Some v -> slot_value ev k = v.
Proof. unfold slot_value. by intros ->. Qed.

Lemma age_rejected_some age :
  age_rejected age = true -> exists n, age = Some n.
Proof. destruct age; [eauto|discriminate]. Qed.

Lemma amount_rejected_some inv :
  amount_rejected inv = true -> exists n, inv = Some n.
Proof. destruct inv; [eauto|discriminate]. Qed.

(** The validation phase on an event that has its four keys. *)
Lemma recommend_portfolio_dialog ev first_name age inv risk :
  get_slots ev !! "firstName" = Some first_name ->
  get_slots ev !! "age" = Some age ->
  get_slots ev !! "investmentAmount" = Some inv ->
  get_slots ev !! "riskLevel" = Some risk ->
  invocationSource ev = "DialogCodeHook" ->
  recommend_portfolio ev =
    if age_rejected age then
      Returns (elicit_slot (sessionAttributes ev) (name (currentIntent ev))
                 (<["age" := None]> (get_slots ev)) (Some "age")
                 (Message "PlainText" age_message),
               with_slots ev (<["age" := None]> (get_slots ev)))
    else if amount_rejected inv then
      Returns (elicit_slot (sessionAttributes ev) (name (currentIntent ev))
                 (<["investmentAmount" := None]> (get_slots ev))
                 (Some "investmentAmount")
                 (Message "PlainText" amount_message),
               with_slots ev (<["investmentAmount" := None]> (get_slots ev)))
    else Returns (delegate (sessionAttributes ev) (get_slots ev), ev).
Proof.
  intros Hf Ha Hi Hr Hs.
  pose proof (validate_data_unfold age inv ev) as Hv.
  destruct (age_rejected age); [|destruct (amount_rejected inv)].
  - apply (recommend_portfolio_invalid ev _ _ _ _ _ _ Hf Ha Hi Hr Hs);
      by rewrite Hv.
  - apply (recommend_portfolio_invalid ev _ _ _ _ _ _ Hf Ha Hi Hr Hs);
      by rewrite Hv.
  - apply (recommend_portfolio_valid ev _ _ _ _ Hf Ha Hi Hr Hs).
    by rewrite Hv.
Qed.

(** What the type of the response tells about the event. *)
Lemma returned_type ev resp ev' :
  returned ev resp ev' ->
  (action_type (dialogAction resp) = "Close" /\
   invocationSource ev <> "DialogCodeHook") \/
  (action_type (dialogAction resp) = "Delegate" /\
   invocationSource ev = "DialogCodeHook" /\
   isValid (validate_data (slot_value ev "age")
              (slot_value ev "investmentAmount") ev) = true) \/
  (action_type (dialogAction resp) = "ElicitSlot" /\
   invocationSource ev = "DialogCodeHook" /\
   isValid (validate_data (slot_value ev "age")
              (slot_value ev "investmentAmount") ev) = false).
Proof.
  intros [fn risk Hf Hr Hs|age inv Ha Hi Hs Hv|age inv k msg Ha Hi Hs Hv Hk Hm];
    simpl; [by left|right; left|right; right];
    rewrite (slot_value_lookup _ _ _ Ha), (slot_value_lookup _ _ _ Hi);
    by repeat split.
Qed.

Lemma returns_type_inv ev t :
  returns_type ev t ->
  slots_complete ev /\
  ((t = "Close" /\ invocationSource ev <> "DialogCodeHook") \/
   (t = "Delegate" /\ invocationSource ev = "DialogCodeHook" /\
    isValid (validate_data (slot_value ev "age")
               (slot_value ev "investmentAmount") ev) = true) \/
   (t = "ElicitSlot" /\ invocationSource ev = "DialogCodeHook" /\
    isValid (validate_data (slot_value ev "age")
               (slot_value ev "investmentAmount") ev) = false)).
Proof.
  intros (resp & ev' & Hr & <-). split.
  - apply recommend_portfolio_returns_iff. eauto.
  - by apply (returned_type ev resp ev'), recommend_portfolio_inv.
Qed.

Lemma returns_type_intro ev :
  slots_complete ev -> exists t, returns_type ev t.
Proof.
  intros (resp & ev' & Hr & _)%recommend_portfolio_complete.
  exists (action_type (dialogAction resp)), resp, ev'. by split.
Qed.

(** X4. The type of the response is decided by the completeness of the
    slots, the invocation source and the validator: Close exactly when the
    source is not ["DialogCodeHook"], Delegate exactly when it is and the
    age and amount slots are valid, ElicitSlot exactly when it is and they
    are not; in each case the four slot keys are present. *)
Theorem response_type_table ev :
  (returns_type ev "Close" <->
     slots_complete ev /\ invocationSource ev <> "DialogCodeHook") /\
  (returns_type ev "Delegate" <->
     slots_complete ev /\ invocationSource ev = "DialogCodeHook" /\
     isValid (validate_data (slot_value ev "age")
                (slot_value ev "investmentAmount") ev) = true) /\
  (returns_type ev "ElicitSlot" <->
     slots_complete ev /\ invocationSource ev = "DialogCodeHook" /\
     isValid (validate_data (slot_value ev "age")
                (slot_value ev "investmentAmount") ev) = false).
Proof.
  split; [|split]; split.
  - intros [Hc [[_ ?]|[[? _]|[? _]]]]%returns_type_inv; done.
  - intros [Hc Hs]. destruct (returns_type_intro ev Hc) as [t Ht].
    destruct (returns_type_inv ev t Ht)
      as [_ [[-> _]|[(_ & ? & _)|(_ & ? & _)]]]; done.
  - intros [Hc [[? _]|[(_ & ? & ?)|[? _]]]]%returns_type_inv; done.
  - intros (Hc & Hs & Hv). destruct (returns_type_intro ev Hc) as [t Ht].
    destruct (returns_type_inv ev t Ht)
      as [_ [[_ ?]|[(-> & _)|(_ & _ & ?)]]]; [done|done|congruence].
  - intros [Hc [[? _]|[[? _]|(_ & ? & ?)]]]%returns_type_inv; done.
  - intros (Hc & Hs & Hv). destruct (returns_type_intro ev Hc) as [t Ht].
    destruct (returns_type_inv ev t Ht)
      as [_ [[_ ?]|[(_ & _ & ?)|(-> & _)]]]; [done|congruence|done].
Qed.


(** X6. What a call leaves of the event. The intent name and the invocation
    source are untouched; the slots dictionary keeps its keys; only the
    values under ["age"] and ["investmentAmount"] can change, and a value
    that changes becomes null; unless the response is ElicitSlot the event
    is left as it was. *)
Theorem handler_frame ev resp ev' :
  recommend_portfolio ev = Returns (resp, ev') ->
  name (currentIntent ev') = name (currentIntent ev) /\
  invocationSource ev' = invocationSource ev /\
  dom (get_slots ev') = dom (get_slots ev) /\
  (forall k, k <> "age" -> k <> "investmentAmount" ->
             get_slots ev' !! k = get_slots ev !! k) /\
  (forall k, get_slots ev' !! k = get_slots ev !! k \/
             get_slots ev' !! k = Some None) /\
  (action_type (dialogAction resp) <> "ElicitSlot" -> ev' = ev).
Proof.
  intros Hr%recommend_portfolio_inv.
  destruct Hr as [fn risk Hf Hr Hs|age inv Ha Hi Hs Hv
                 |age inv k msg Ha Hi Hs Hv Hk Hm];
    try (repeat split; auto; done).
  destruct (validate_data_invalid_slot age inv ev Hv)
    as (k' & msg' & Hk' & _ & Hin).
  rewrite Hk in Hk'. injection Hk' as <-.
  assert (Hp : is_Some (get_slots ev !! k)) by (destruct Hin as [->| ->]; eauto).
  repeat split; simpl; try done.
  - change (dom (<[k := None]> (get_slots ev)) = dom (get_slots ev)).
    rewrite dom_insert_L. apply elem_of_dom in Hp.
    apply subseteq_union_1_L. by apply singleton_subseteq_l.
  - intros j Hj1 Hj2.
    change ((<[k := None]> (get_slots ev)) !! j = get_slots ev !! j).
    apply lookup_insert_ne. destruct Hin; congruence.
  - intros j. change ((<[k := None]> (get_slots ev)) !! j = get_slots ev !! j
                      \/ (<[k := None]> (get_slots ev)) !! j = Some None).
    destruct (decide (k = j)) as [->|Hne].
    + right. apply lookup_insert_eq.
    + left. by apply lookup_insert_ne.
Qed.

(** X7. The handler re-prompts only for a slot that holds a value: a
    returned ElicitSlot is for ["age"] or ["investmentAmount"], never for
    the first name or the risk level; the slot held a string when the call
    started, the message is that slot's fixed message, and the intent name
    is the event's. *)
Theorem elicited_slot_had_value ev resp ev' intent_name d k msg :
  recommend_portfolio ev = Returns (resp, ev') ->
  dialogAction resp = ElicitSlot intent_name d k msg ->
  intent_name = name (currentIntent ev) /\
  exists key value,
    k = Some key /\
    get_slots ev !! key = Some (Some value) /\
    d = <[key := None]> (get_slots ev) /\
    ((key = "age" /\ msg = Message "PlainText" age_message) \/
     (key = "investmentAmount" /\ msg = Message "PlainText" amount_message)).
Proof.
  intros Hr%recommend_portfolio_inv He.
  destruct Hr as [fn risk Hf Hr Hs|age inv Ha Hi Hs Hv
                 |age inv key m Ha Hi Hs Hv Hk Hm];
    simpl in He; try discriminate.
  injection He as <- <- <- <-. split; [done|].
  destruct (validate_data_cases age inv ev)
    as [[Hrej Hres]|[(_ & Hrej & Hres)|(_ & _ & Hres)]];
    rewrite Hres in Hv, Hk, Hm; simpl in Hv, Hk, Hm; try discriminate;
    injection Hk as <-; injection Hm as <-.
  - destruct (age_rejected_some age Hrej) as [n ->].
    exists "age", n. repeat split; auto.
  - destruct (amount_rejected_some inv Hrej) as [n ->].
    exists "investmentAmount", n. repeat split; auto.
Qed.

Lemma cleared_lookup_ne ev k j v :
  k <> j -> get_slots ev !! j = v ->
  get_slots (with_slots ev (<[k := None]> (get_slots ev))) !! j = v.
Proof. intros Hne <-. by apply lookup_insert_ne. Qed.

Lemma cleared_lookup_eq ev k :
  get_slots (with_slots ev (<[k := None]> (get_slots ev))) !! k = Some None.
Proof. apply lookup_insert_eq. Qed.

(** X8. Re-prompting ends. When the handler has returned ElicitSlot and is
    called again on the event as that call left it, it returns again, never
    elicits the same slot, and never closes; and if it elicits once more,
    the call after that returns Delegate. *)
Theorem elicit_then_retry ev resp ev' intent_name d k msg :
  recommend_portfolio ev = Returns (resp, ev') ->
  dialogAction resp = ElicitSlot intent_name d k msg ->
  exists resp2 ev2,
    recommend_portfolio ev' = Returns (resp2, ev2) /\
    (forall n2 d2 m2, dialogAction resp2 <> ElicitSlot n2 d2 k m2) /\
    action_type (dialogAction resp2) <> "Close" /\
    (action_type (dialogAction resp2) = "ElicitSlot" ->
     exists resp3 ev3,
       recommend_portfolio ev2 = Returns (resp3, ev3) /\
       action_type (dialogAction resp3) = "Delegate").
Proof.
  intros Hret He.
  assert (Hc : slots_complete ev)
    by (apply recommend_portfolio_returns_iff; eauto).
  apply slots_complete_lookup in Hc as (fn & age & inv & risk & Hf & Ha & Hi & Hr).
  pose proof (recommend_portfolio_inv _ _ _ Hret) as Hshape.
  assert (Hs : invocationSource ev = "DialogCodeHook").
  { destruct Hshape; simpl in He; try discriminate; done. }
  clear Hshape.
  rewrite (recommend_portfolio_dialog ev fn age inv risk Hf Ha Hi Hr Hs)
    in Hret.
  destruct (age_rejected age) eqn:Hage;
    [|destruct (amount_rejected inv) eqn:Hamt].
  - (* the age was elicited; the amount is checked next *)
    injection Hret as <- <-. simpl in He. injection He as <- <- <- <-.
    set (ev1 := with_slots ev (<["age" := None]> (get_slots ev))).
    assert (Hf1 : get_slots ev1 !! "firstName" = Some fn)
      by (by apply cleared_lookup_ne).
    assert (Ha1 : get_slots ev1 !! "age" = Some None)
      by apply cleared_lookup_eq.
    assert (Hi1 : get_slots ev1 !! "investmentAmount" = Some inv)
      by (by apply cleared_lookup_ne).
    assert (Hr1 : get_slots ev1 !! "riskLevel" = Some risk)
      by (by apply cleared_lookup_ne).
    pose proof (recommend_portfolio_dialog ev1 _ _ _ _ Hf1 Ha1 Hi1 Hr1 Hs)
      as H1.
    simpl in H1. destruct (amount_rejected inv) eqn:Hamt.
    + do 2 eexists. split; [exact H1|]. simpl.
      split; [intros ? ? ? [=]|]. split; [discriminate|]. intros _.
      set (ev2 := with_slots ev1
                    (<["investmentAmount" := None]> (get_slots ev1))).
      assert (Hf2 : get_slots ev2 !! "firstName" = Some fn)
        by (by apply cleared_lookup_ne).
      assert (Ha2 : get_slots ev2 !! "age" = Some None)
        by (by apply cleared_lookup_ne).
      assert (Hi2 : get_slots ev2 !! "investmentAmount" = Some None)
        by apply cleared_lookup_eq.
      assert (Hr2 : get_slots ev2 !! "riskLevel" = Some risk)
        by (by apply cleared_lookup_ne).
      pose proof (recommend_portfolio_dialog ev2 _ _ _ _ Hf2 Ha2 Hi2 Hr2 Hs)
        as H2.
      simpl in H2. do 2 eexists. split; [exact H2|reflexivity].
    + do 2 eexists. split; [exact H1|]. simpl.
      split; [intros ? ? ? [=]|]. split; discriminate.
  - (* the amount was elicited; the age had passed *)
    injection Hret as <- <-. simpl in He. injection He as <- <- <- <-.
    set (ev1 := with_slots ev
                  (<["investmentAmount" := None]> (get_slots ev))).
    assert (Hf1 : get_slots ev1 !! "firstName" = Some fn)
      by (by apply cleared_lookup_ne).
    assert (Ha1 : get_slots ev1 !! "age" = Some age)
      by (by apply cleared_lookup_ne).
    assert (Hi1 : get_slots ev1 !! "investmentAmount" = Some None)
      by apply cleared_lookup_eq.
    assert (Hr1 : get_slots ev1 !! "riskLevel" = Some risk)
      by (by apply cleared_lookup_ne).
    pose proof (recommend_portfolio_dialog ev1 _ _ _ _ Hf1 Ha1 Hi1 Hr1 Hs)
      as H1.
    rewrite Hage in H1. simpl in H1.
    do 2 eexists. split; [exact H1|]. simpl.
    split; [intros ? ? ? [=]|]. split; discriminate.
  - injection Hret as <- <-. discriminate.
Qed.

(** X9. Every message the handler sends, in ElicitSlot and in Close, has
    content type ["PlainText"]; Delegate carries no message. *)
Theorem response_message_plain_text ev resp ev' :
  recommend_portfolio ev = Returns (resp, ev') ->
  match action_message (dialogAction resp) with
  | Some m => contentType m = "PlainText" /\
              action_type (dialogAction resp) <> "Delegate"
  | None => action_type (dialogAction resp) = "Delegate"
  end.
Proof.
  intros Hr%recommend_portfolio_inv.
  destruct Hr as [fn risk Hf Hr Hs|age inv Ha Hi Hs Hv
                 |age inv k msg Ha Hi Hs Hv Hk Hm]; simpl; try done.
  destruct (validate_data_cases age inv ev)
    as [[_ Hres]|[(_ & _ & Hres)|(_ & _ & Hres)]];
    rewrite Hres in Hm; simpl in Hm; try discriminate;
    injection Hm as <-; done.
Qed.

(** X10. Nothing to validate yet: in the validation phase, an event whose
    age and investment amount are both null is delegated with its slots as
    they are, whatever the first name and the risk level hold. *)
Theorem nothing_collected_delegates ev first_name risk :
  invocationSource ev = "DialogCodeHook" ->
  get_slots ev !! "firstName" = Some first_name ->
  get_slots ev !! "age" = Some None ->
  get_slots ev !! "investmentAmount" = Some None ->
  get_slots ev !! "riskLevel" = Some risk ->
  recommend_portfolio ev =
    Returns (Response (sessionAttributes ev) (Delegate (get_slots ev)), ev).
Proof.
  intros Hs Hf Ha Hi Hr.
  by rewrite (recommend_portfolio_dialog ev _ _ _ _ Hf Ha Hi Hr Hs).
Qed.

End Handler.

(** * The handler on sample events *)

(** The scenarios of the specification. *)

Example scenario_age_70 :
  recommend_portfolio int_literal float_literal
    (sample_event "DialogCodeHook"
       (sample_slots (Some "Jane") (Some "70") None None))
  = Returns
      (Response (Some {["userId" := "u-1"]})
         (ElicitSlot "RecommendPortfolio"
            (sample_slots (Some "Jane") None None None)
            (Some "age") (Message "PlainText" age_message)),
       sample_event "DialogCodeHook"
         (sample_slots (Some "Jane") None None None)).
Proof. vm_compute. reflexivity. Qed.

Example scenario_amount_3000 :
  recommend_portfolio int_literal float_literal
    (sample_event "DialogCodeHook"
       (sample_slots (Some "Jane") (Some "30") (Some "3000") None))
  = Returns
      (Response (Some {["userId" := "u-1"]})
         (ElicitSlot "RecommendPortfolio"
            (sample_slots (Some "Jane") (Some "30") None None)
            (Some "investmentAmount") (Message "PlainText" amount_message)),
       sample_event "DialogCodeHook"
         (sample_slots (Some "Jane") (Some "30") None None)).
Proof. vm_compute. reflexivity. Qed.

Example scenario_amount_6000 :
  recommend_portfolio int_literal float_literal
    (sample_event "DialogCodeHook"
       (sample_slots (Some "Jane") (Some "30") (Some "6000") None))
  = Returns
      (Response (Some {["userId" := "u-1"]})
         (Delegate (sample_slots (Some "Jane") (Some "30") (Some "6000") None)),
       sample_event "DialogCodeHook"
         (sample_slots (Some "Jane") (Some "30") (Some "6000") None)).
Proof. vm_compute. reflexivity. Qed.

Example scenario_fulfilment :
  recommend_portfolio int_literal float_literal
    (sample_event "FulfillmentCodeHook"
       (sample_slots (Some "Jane") (Some "30") (Some "6000") (Some "High")))
  = Returns
      (Response (Some {["userId" := "u-1"]})
         (Close "Fulfilled"
            (Message "PlainText"
               ("Jane thank you for your information;" ++ newline ++
                "            based on the risk level you defined, " ++
                "my recommendation is to choose an investment portfolio with " ++
                "20% bonds (AGG), 80% equities (SPY)" ++ newline ++
                "            "))),
       sample_event "FulfillmentCodeHook"
         (sample_slots (Some "Jane") (Some "30") (Some "6000") (Some "High"))).
Proof. vm_compute. reflexivity. Qed.

(** An unreadable age does not stop the dialog, and an unreadable amount
    neither. *)
Example scenario_unreadable :
  validate_data int_literal float_literal (Some "abc") (Some "6000")
    (sample_event "DialogCodeHook" ∅) = no_violation /\
  validate_data int_literal float_literal (Some "30") (Some "a lot")
    (sample_event "DialogCodeHook" ∅) = no_violation.
Proof. split; vm_compute; reflexivity. Qed.

(** C1, as stated, fails on an unreadable age: the age is present and is
    not an integer in range, and still the investment amount is the
    reported violation. *)
Lemma validate_data_unreadable_age_counterexample :
  int_literal "abc" = None /\
  float_literal "3000" = Some 3000%float /\
  PrimFloat.ltb 3000 5000 = true /\
  violatedSlot
    (validate_data int_literal float_literal (Some "abc") (Some "3000")
       (sample_event "DialogCodeHook" ∅)) = Some "investmentAmount" /\
  ~ age_absent_or_in_range int_literal (Some "abc").
Proof.
  repeat split; try (vm_compute; reflexivity).
  intros [H|(n & i & [= <-] & Hn & _)]; discriminate.
Qed.

(** C2, as stated, fails on an event whose slots dictionary has the age and
    the investment amount, both valid, and lacks the other two keys. *)
Lemma valid_slots_missing_key_counterexample :
  let ev := sample_event "DialogCodeHook" age_and_amount_only in
  invocationSource ev = "DialogCodeHook" /\
  get_slots ev !! "age" = Some (Some "30") /\
  int_literal "30" = Some 30 /\
  get_slots ev !! "investmentAmount" = Some (Some "6000") /\
  float_literal "6000" = Some 6000%float /\
  PrimFloat.leb 5000 6000 = true /\
  recommend_portfolio int_literal float_literal ev
    = Raises (KeyError "firstName").
Proof. repeat split; vm_compute; reflexivity. Qed.

(** C6, as stated, fails on a fulfilment event whose slots dictionary has
    the first name and the risk level and lacks the other two keys. *)
Lemma fulfilment_missing_key_counterexample :
  let ev := sample_event "FulfillmentCodeHook" name_and_risk_only in
  invocationSource ev <> "DialogCodeHook" /\
  get_slots ev !! "firstName" = Some (Some "Jane") /\
  get_slots ev !! "riskLevel" = Some (Some "High") /\
  recommend_portfolio int_literal float_literal ev
    = Raises (KeyError "age").
Proof. repeat split; try (vm_compute; reflexivity). discriminate. Qed.

(** C7, as stated, fails on an event for the supported intent whose slots
    dictionary is empty: the intent name matches and [lambda_handler] does
    not return. *)
Lemma lambda_handler_missing_key_counterexample :
  let ev := sample_event "DialogCodeHook" ∅ in
  name (currentIntent ev) = "RecommendPortfolio" /\
  lambda_handler int_literal float_literal ev tt
    = Raises (KeyError "firstName") /\
  ~ exists r, lambda_handler int_literal float_literal ev tt = Returns r.
Proof.
  repeat split; try (vm_compute; reflexivity).
  intros [r Hr]. vm_compute in Hr. discriminate.
Qed.

(** * The theorems at sample inputs *)

Lemma validate_data_first_violation_witness :
  validate_data int_literal float_literal (Some "70") (Some "3000")
    age_70_event = age_violation /\
  validate_data int_literal float_literal (Some "30") (Some "3000")
    valid_event = amount_violation.
Proof.
  split.
  - apply (proj1 (validate_data_first_violation int_literal float_literal
                    (Some "70") (Some "3000") age_70_event) "70" 70);
      [reflexivity | reflexivity | right; lia].
  - destruct (proj2 (validate_data_first_violation int_literal float_literal
                       (Some "30") (Some "3000") valid_event)
                "3000" 3000%float eq_refl eq_refl eq_refl) as [_ Hamount].
    apply Hamount. left; right. exists "30", 30.
    repeat split; first [reflexivity | lia].
Defined.

Lemma valid_slots_delegate_witness :
  validate_data int_literal float_literal (Some "30") (Some "6000")
    valid_event = ValidationResult true None None /\
  recommend_portfolio int_literal float_literal valid_event =
    Returns (Response (sessionAttributes valid_event)
               (Delegate (get_slots valid_event)), valid_event).
Proof.
  apply (valid_slots_delegate int_literal float_literal valid_event
           (Some "Jane") "30" 30 "6000" 6000%float None);
    first [reflexivity | lia].
Defined.

Lemma unparsable_slot_fails_open_witness :
  parse_int int_literal "abc" = PyFloat nan /\
  parse_float float_literal "abc" = nan /\
  validate_data int_literal float_literal (Some "abc") (Some "abc")
    valid_event = no_violation.
Proof.
  destruct (unparsable_slot_fails_open int_literal float_literal "abc")
    as [Hi Hf].
  destruct (Hi eq_refl) as (Hpi & _ & Hvi).
  destruct (Hf eq_refl) as (Hpf & _ & Hvf).
  split; [exact Hpi|]. split; [exact Hpf|].
  rewrite (proj1 (Hvi (Some "abc") valid_event)).
  rewrite (proj1 (Hvf None valid_event)). reflexivity.
Defined.

Lemma invalid_slot_elicited_witness :
  exists k msg d,
    violatedSlot (validate_data int_literal float_literal (Some "70") None
                    age_70_event) = Some k /\
    vr_message (validate_data int_literal float_literal (Some "70") None
                  age_70_event) = Some msg /\
    recommend_portfolio int_literal float_literal age_70_event =
      Returns (Response (sessionAttributes age_70_event)
                 (ElicitSlot (name (currentIntent age_70_event)) d (Some k)
                    msg),
               with_slots age_70_event d) /\
    d !! k = Some None /\
    (forall j, j <> k -> d !! j = get_slots age_70_event !! j).
Proof.
  apply (invalid_slot_elicited int_literal float_literal age_70_event
           (Some "Jane") (Some "70") None None); reflexivity.
Defined.

Lemma fulfilment_closes_witness :
  let text := closing_content (Some "Jane")
                (get_initial_recommendation (Some "High")) in
  recommend_portfolio int_literal float_literal fulfilment_event =
    Returns (Response (sessionAttributes fulfilment_event)
               (Close "Fulfilled" (Message "PlainText" text)),
             fulfilment_event) /\
  (forall s, Some "Jane" = Some s -> contains text s) /\
  contains text (py_str (Some "Jane")) /\
  contains text (get_initial_recommendation (Some "High")).
Proof.
  apply (fulfilment_closes int_literal float_literal fulfilment_event
           (Some "Jane") (Some "30") (Some "6000") (Some "High"));
    first [reflexivity | discriminate].
Defined.

Lemma session_attributes_echoed_witness :
  resp_sessionAttributes
    (elicit_slot (Some {["userId" := "u-1"]}) "RecommendPortfolio"
       (sample_slots (Some "Jane") None None None) (Some "age")
       (Message "PlainText" age_message))
    = sessionAttributes age_70_event /\
  sessionAttributes
    (sample_event "DialogCodeHook"
       (sample_slots (Some "Jane") None None None))
    = sessionAttributes age_70_event.
Proof.
  apply (session_attributes_echoed int_literal float_literal age_70_event tt).
  right. vm_compute. reflexivity.
Defined.

Lemma close_always_fulfilled_witness :
  "Fulfilled" = "Fulfilled" /\ "Fulfilled" <> "Failed".
Proof.
  apply (close_always_fulfilled int_literal float_literal fulfilment_event
           (close (sessionAttributes fulfilment_event) "Fulfilled"
              (Message "PlainText"
                 (closing_content (Some "Jane")
                    (get_initial_recommendation (Some "High")))))
           fulfilment_event "Fulfilled"
           (Message "PlainText"
              (closing_content (Some "Jane")
                 (get_initial_recommendation (Some "High")))));
    vm_compute; reflexivity.
Defined.

Lemma missing_slot_key_raises_witness :
  (exists k', first_missing_key
                (sample_event "FulfillmentCodeHook" name_and_risk_only)
                = Some k' /\
              k' ∈ slot_keys /\
              get_slots (sample_event "FulfillmentCodeHook" name_and_risk_only)
                !! k' = None /\
              recommend_portfolio int_literal float_literal
                (sample_event "FulfillmentCodeHook" name_and_risk_only)
                = Raises (KeyError k')) /\
  (exists resp ev',
     recommend_portfolio int_literal float_literal null_slots_event
       = Returns (resp, ev')).
Proof.
  split.
  - apply (proj1 (missing_slot_key_raises int_literal float_literal
                    (sample_event "FulfillmentCodeHook" name_and_risk_only))
             "investmentAmount");
      [unfold slot_keys; set_solver | reflexivity].
  - apply (proj2 (missing_slot_key_raises int_literal float_literal
                    null_slots_event)).
    unfold slots_complete, slot_keys.
    repeat constructor; eexists; reflexivity.
Defined.

(** * The further properties at sample inputs *)

(** Two rounds of re-prompting, then Delegate. *)
Example scenario_two_rounds :
  let ev1 := sample_event "DialogCodeHook"
               (sample_slots (Some "Jane") None (Some "3000") None) in
  let ev2 := sample_event "DialogCodeHook"
               (sample_slots (Some "Jane") None None None) in
  recommend_portfolio int_literal float_literal both_invalid_event
    = Returns (elicit_slot (Some {["userId" := "u-1"]}) "RecommendPortfolio"
                 (get_slots ev1) (Some "age")
                 (Message "PlainText" age_message), ev1) /\
  recommend_portfolio int_literal float_literal ev1
    = Returns (elicit_slot (Some {["userId" := "u-1"]}) "RecommendPortfolio"
                 (get_slots ev2) (Some "investmentAmount")
                 (Message "PlainText" amount_message), ev2) /\
  recommend_portfolio int_literal float_literal ev2
    = Returns (delegate (Some {["userId" := "u-1"]}) (get_slots ev2), ev2).
Proof. repeat split; vm_compute; reflexivity. Qed.


Lemma handler_frame_witness :
  let ev := age_70_event in
  let ev' := sample_event "DialogCodeHook"
               (sample_slots (Some "Jane") None None None) in
  let resp := elicit_slot (Some {["userId" := "u-1"]}) "RecommendPortfolio"
                (get_slots ev') (Some "age")
                (Message "PlainText" age_message) in
  name (currentIntent ev') = name (currentIntent ev) /\
  invocationSource ev' = invocationSource ev /\
  dom (get_slots ev') = dom (get_slots ev) /\
  (forall k, k <> "age" -> k <> "investmentAmount" ->
             get_slots ev' !! k = get_slots ev !! k) /\
  (forall k, get_slots ev' !! k = get_slots ev !! k \/
             get_slots ev' !! k = Some None) /\
  (action_type (dialogAction resp) <> "ElicitSlot" -> ev' = ev).
Proof.
  apply (handler_frame int_literal float_literal age_70_event).
  vm_compute. reflexivity.
Defined.

Lemma elicited_slot_had_value_witness :
  "RecommendPortfolio" = name (currentIntent age_70_event) /\
  exists key value,
    Some "age" = Some key /\
    get_slots age_70_event !! key = Some (Some value) /\
    sample_slots (Some "Jane") None None None
      = <[key := None]> (get_slots age_70_event) /\
    ((key = "age" /\
      Message "PlainText" age_message = Message "PlainText" age_message) \/
     (key = "investmentAmount" /\
      Message "PlainText" age_message = Message "PlainText" amount_message)).
Proof.
  apply (elicited_slot_had_value int_literal float_literal age_70_event
           (elicit_slot (Some {["userId" := "u-1"]}) "RecommendPortfolio"
              (sample_slots (Some "Jane") None None None) (Some "age")
              (Message "PlainText" age_message))
           (sample_event "DialogCodeHook"
              (sample_slots (Some "Jane") None None None)));
    [vm_compute; reflexivity | reflexivity].
Defined.

Lemma elicit_then_retry_witness :
  exists resp2 ev2,
    recommend_portfolio int_literal float_literal
      (sample_event "DialogCodeHook"
         (sample_slots (Some "Jane") None (Some "3000") None))
      = Returns (resp2, ev2) /\
    (forall n2 d2 m2,
       dialogAction resp2 <> ElicitSlot n2 d2 (Some "age") m2) /\
    action_type (dialogAction resp2) <> "Close" /\
    (action_type (dialogAction resp2) = "ElicitSlot" ->
     exists resp3 ev3,
       recommend_portfolio int_literal float_literal ev2
         = Returns (resp3, ev3) /\
       action_type (dialogAction resp3) = "Delegate").
Proof.
  apply (elicit_then_retry int_literal float_literal both_invalid_event
           (elicit_slot (Some {["userId" := "u-1"]}) "RecommendPortfolio"
              (sample_slots (Some "Jane") None (Some "3000") None)
              (Some "age") (Message "PlainText" age_message))
           (sample_event "DialogCodeHook"
              (sample_slots (Some "Jane") None (Some "3000") None))
           "RecommendPortfolio"
           (sample_slots (Some "Jane") None (Some "3000") None)
           (Some "age") (Message "PlainText" age_message));
    [vm_compute; reflexivity | reflexivity].
Defined.

Lemma response_message_plain_text_witness :
  contentType
    (Message "PlainText"
       (closing_content (Some "Jane")
          (get_initial_recommendation (Some "High")))) = "PlainText" /\
  "Close" <> "Delegate".
Proof.
  apply (response_message_plain_text int_literal float_literal
           fulfilment_event
           (close (sessionAttributes fulfilment_event) "Fulfilled"
              (Message "PlainText"
                 (closing_content (Some "Jane")
                    (get_initial_recommendation (Some "High")))))
           fulfilment_event).
  vm_compute. reflexivity.
Defined.

Lemma nothing_collected_delegates_witness :
  recommend_portfolio int_literal float_literal null_slots_event =
    Returns (Response (sessionAttributes null_slots_event)
               (Delegate (get_slots null_slots_event)), null_slots_event).
Proof.
  apply (nothing_collected_delegates int_literal float_literal
           null_slots_event None None); reflexivity.
Defined.
